(** * Bitbucket flow storage and the Atlassian client, embedded in Rocq

    The two Python modules of the repository are embedded shallowly:

    - [prefect/utilities/atlassian.py]: class [BitbucketClient]
      ([__init__], [get_contents], [_request]);
    - [prefect/environments/storage/bitbucket.py]: class [Bitbucket]
      ([__init__], [default_labels], [get_flow], [add_flow], [build]).

    Python values are modelled as follows.  A [str] is the list of its code
    points, [bytes] is a list of [byte], an [int] is a [Z], a [dict] is a
    [gmap], [None]-able values are [option]s.  A method that raises returns
    [Raised e]; a method that talks to the network runs in the monad [IO],
    which threads the log of the requests handed to [requests.Session]. *)

From Stdlib Require Import ZArith NArith List Strings.String Strings.Ascii.
From Stdlib Require Import Strings.Byte DecimalString DecimalZ DecimalPos Lia.
From stdpp Require Import base option list gmap.

Local Open Scope Z_scope.

(* ------------------------------------------------------------------ *)
(** ** Python strings *)

(** A Python [str]: the sequence of its Unicode code points. *)
Abbreviation str := (list N) (only parsing).

(** A literal of the source (all of them are ASCII). *)
Definition lit (s : string) : str := map N_of_ascii (list_ascii_of_string s).

(** [f"{n}"] for an [int]: its decimal digits, with a sign when negative. *)
Definition format_int (n : Z) : str := lit (NilZero.string_of_int (Z.to_int n)).

(** [int(s)] on a decimal rendering: what a reader of a message does to get
    the number back. *)
Definition parse_int (s : str) : option Z :=
  Z.of_int <$> NilZero.int_of_string (string_of_list_ascii (map ascii_of_N s)).

(** The character [U+0022], which the source writes inside single quotes. *)
Definition dquote : str := [34%N].

(** Truth value of an [Optional[str]]: [None] and the empty string are false. *)
Definition truthy (s : option str) : bool :=
  match s with
  | Some (_ :: _) => true
  | _ => false
  end.

(** Truth value of an optional [dict]: [None] and the empty dict are false. *)
Definition truthy_dict {V} (d : option (gmap (list N) V)) : bool :=
  match d with
  | Some m => negb (bool_decide (dom m = ∅))
  | None => false
  end.

(** [needle in haystack] for two strings. *)
Definition mentions (haystack needle : str) : Prop :=
  ∃ before after, haystack = before ++ needle ++ after.

(* ------------------------------------------------------------------ *)
(** ** The [utf-8] codec of [str(content, "utf-8")]

    CPython's strict decoder accepts exactly the well-formed byte sequences
    of the Unicode standard (table 3-7): no overlong forms, no surrogates,
    nothing above [U+10FFFF].  Anything else raises [UnicodeDecodeError]. *)
Module Utf8.

Local Open Scope N_scope.

Definition byte_of_N (n : N) : byte :=
  match Byte.of_N n with
  | Some b => b
  | None => x00
  end.

Definition between (lo hi n : N) : bool := (lo <=? n) && (n <=? hi).

(** Continuation bytes are [80..BF]. *)
Definition is_cont (n : N) : bool := between 0x80 0xBF n.

(** The range allowed for the second byte after the lead byte [n0]. *)
Definition second_lo (n0 : N) : N :=
  if n0 =? 0xE0 then 0xA0 else if n0 =? 0xF0 then 0x90 else 0x80.

Definition second_hi (n0 : N) : N :=
  if n0 =? 0xED then 0x9F else if n0 =? 0xF4 then 0x8F else 0xBF.

Fixpoint decode (bs : list byte) : option (list N) :=
  match bs with
  | [] => Some []
  | b0 :: t0 =>
    let n0 := Byte.to_N b0 in
    if n0 <? 0x80 then
      cons n0 <$> decode t0
    else if n0 <? 0xC2 then None
    else if n0 <? 0xE0 then
      match t0 with
      | b1 :: t1 =>
        let n1 := Byte.to_N b1 in
        if is_cont n1
        then cons ((n0 - 0xC0) * 64 + (n1 - 0x80)) <$> decode t1
        else None
      | _ => None
      end
    else if n0 <? 0xF0 then
      match t0 with
      | b1 :: b2 :: t2 =>
        let n1 := Byte.to_N b1 in
        let n2 := Byte.to_N b2 in
        if between (second_lo n0) (second_hi n0) n1 && is_cont n2
        then cons ((n0 - 0xE0) * 4096 + (n1 - 0x80) * 64 + (n2 - 0x80))
               <$> decode t2
        else None
      | _ => None
      end
    else if n0 <? 0xF5 then
      match t0 with
      | b1 :: b2 :: b3 :: t3 =>
        let n1 := Byte.to_N b1 in
        let n2 := Byte.to_N b2 in
        let n3 := Byte.to_N b3 in
        if between (second_lo n0) (second_hi n0) n1
           && is_cont n2 && is_cont n3
        then cons ((n0 - 0xF0) * 262144 + (n1 - 0x80) * 4096
                   + (n2 - 0x80) * 64 + (n3 - 0x80))
               <$> decode t3
        else None
      | _ => None
      end
    else None
  end.

(** A Unicode scalar value: a code point that is not a surrogate. *)
Definition scalar (c : N) : Prop :=
  c < 0xD800 ∨ (0xE000 <= c ∧ c < 0x110000).

(** The encoder a server uses to produce the body from a text. *)
Definition encode1 (c : N) : list byte :=
  if c <? 0x80 then [byte_of_N c]
  else if c <? 0x800 then
    [byte_of_N (0xC0 + c / 64); byte_of_N (0x80 + c mod 64)]
  else if c <? 0x10000 then
    [byte_of_N (0xE0 + c / 4096); byte_of_N (0x80 + (c / 64) mod 64);
     byte_of_N (0x80 + c mod 64)]
  else
    [byte_of_N (0xF0 + c / 262144); byte_of_N (0x80 + (c / 4096) mod 64);
     byte_of_N (0x80 + (c / 64) mod 64); byte_of_N (0x80 + c mod 64)].

Definition encode (s : list N) : list byte := flat_map encode1 s.

End Utf8.

(* ------------------------------------------------------------------ *)
(** ** Exceptions and the request monad *)

(** The exceptions that reach a caller.  Every error of the two modules is a
    [ValueError] told apart by its message; [UnicodeDecodeError] comes from
    [str(_, "utf-8")]; [CollaboratorError] stands for whatever [requests] or
    the flow extraction raise. *)
Inductive exn : Type :=
| ValueError (msg : str)
| UnicodeDecodeError
| CollaboratorError (what : str).

Inductive outcome (A : Type) : Type :=
| Returned (a : A)
| Raised (e : exn).
Arguments Returned {A} a.
Arguments Raised {A} e.

(** What one call of [session.request(method, url, data=, params=, headers=)]
    hands to the HTTP layer, with the [auth] pair of the session it is
    called on. *)
Record Sent : Type := mkSent {
  sent_auth : option str * option str;
  sent_method : str;
  sent_url : str;
  sent_data : option (list byte);
  sent_params : option (gmap (list N) (list N));
  sent_headers : gmap (list N) (list N)
}.

Record Response : Type := mkResponse {
  status_code : Z;
  content : list byte
}.

(** A computation that may issue requests: it receives the log of the
    requests issued so far and returns its outcome with the extended log. *)
Definition IO (A : Type) : Type := list Sent → outcome A * list Sent.

Definition ret {A} (a : A) : IO A := λ log, (Returned a, log).

Definition raise {A} (e : exn) : IO A := λ log, (Raised e, log).

Definition bind {A B} (m : IO A) (k : A → IO B) : IO B :=
  λ log,
    match m log with
    | (Returned a, log') => k a log'
    | (Raised e, log') => (Raised e, log')
    end.

Definition lift {A} (o : outcome A) : IO A := λ log, (o, log).

Notation "'let*' x ':=' m 'in' k" := (bind m (λ x, k))
  (at level 10, x name, m at level 100, k at level 200).

(* ------------------------------------------------------------------ *)
(** ** [prefect/utilities/atlassian.py] *)

Record Session : Type := mkSession {
  auth : option str * option str
}.

Record BitbucketClient : Type := mkClient {
  host : option str;
  session : Session
}.

Definition CLOUD_API : str := lit "https://api.bitbucket.org/2.0".

Section Prefect.

(** [prefect.__version__], [prefect.context] and the HTTP layer are not part
    of the two modules: they are parameters.  The HTTP layer answers a
    request knowing the requests that came before. *)
Context (prefect_version : str).
Context (context : gmap (list N) (gmap (list N) (list N))).
Context (transport : list Sent → Sent → outcome Response).

(** [BitbucketClient.__init__] *)
Definition BitbucketClient_init
    (credentials : option (gmap (list N) (list N))) (host : option str)
    : BitbucketClient :=
  let '(user, password) :=
    if truthy_dict credentials then
      let c := default ∅ credentials in
      (c !! lit "BITBUCKET_USER", c !! lit "BITBUCKET_PASSWORD")
    else
      let secrets := default ∅ (context !! lit "secrets") in
      (secrets !! lit "BITBUCKET_USER", secrets !! lit "BITBUCKET_PASSWORD")
  in
  {| host := host; session := {| auth := (user, password) |} |}.

(** [requests.Session.request]: the request is logged and answered. *)
Definition session_request (s : Session) (method url : str)
    (data : option (list byte)) (params : option (gmap (list N) (list N)))
    (headers : gmap (list N) (list N)) : IO Response :=
  λ log,
    let req := mkSent (auth s) method url data params headers in
    (transport log req, log ++ [req]).

(** The messages of the three [ValueError]s of the client. *)
Definition authentication_failed : str :=
  lit "Bitbucket authentication failed, please check your credentials.".

Definition no_file_found (path repo branch : str) : str :=
  lit "No file found at `" ++ path ++ lit "` in repo `" ++ repo ++ lit "@"
    ++ branch ++ lit "`".

Definition request_failed (status : Z) : str :=
  lit "Request to Bitbucket failed with " ++ format_int status.

(** The [headers] dict that [_request] builds. *)
Definition request_headers (content_type : option str)
    : gmap (list N) (list N) :=
  let headers : gmap (list N) (list N) :=
    {[ lit "User-agent" := lit "Prefect/" ++ prefect_version ]} in
  if truthy content_type
  then <[ lit "Content-type" := default [] content_type ]> headers
  else headers.

(** [BitbucketClient._request] *)
Definition _request (self : BitbucketClient) (method url : str)
    (body : option (list byte)) (content_type : option str)
    (params : option (gmap (list N) (list N))) : IO Response :=
  let headers := request_headers content_type in
  let* response :=
    session_request (session self) method url body params headers in
  if status_code response =? 401 then
    raise (ValueError authentication_failed)
  else ret response.

(** The request [_request] hands to the session. *)
Definition request_sent (self : BitbucketClient) (method url : str)
    (body : option (list byte)) (content_type : option str)
    (params : option (gmap (list N) (list N))) : Sent :=
  mkSent (auth (session self)) method url body params
    (request_headers content_type).

(** The URL [get_contents] asks for. *)
Definition contents_url (self : BitbucketClient) (repo path branch : str)
    : str :=
  if truthy (host self) then
    default [] (host self) ++ lit "/projects/" ++ repo ++ lit "/browse/"
      ++ path ++ lit "?raw&at=" ++ branch
  else
    CLOUD_API ++ lit "/repositories/" ++ repo ++ lit "/src/" ++ branch
      ++ lit "/" ++ path.

(** The request [get_contents] issues. *)
Definition contents_request (self : BitbucketClient) (repo path branch : str)
    : Sent :=
  request_sent self (lit "GET") (contents_url self repo path branch)
    None None None.

(** [BitbucketClient.get_contents]; callers that leave [branch] out pass
    [lit "master"], the default of the signature. *)
Definition get_contents (self : BitbucketClient) (repo path branch : str)
    : IO str :=
  let url := contents_url self repo path branch in
  let* response := _request self (lit "GET") url None None None in
  if status_code response =? 404 then
    raise (ValueError (no_file_found path repo branch))
  else if negb ((200 <=? status_code response)
                && (status_code response <? 300)) then
    raise (ValueError (request_failed (status_code response)))
  else
    match Utf8.decode (content response) with
    | Some text => ret text
    | None => raise UnicodeDecodeError
    end.

(* ------------------------------------------------------------------ *)
(** ** [prefect/environments/storage/bitbucket.py] *)

(** A [Flow] is an object of the engine; the storage reads its [name].
    [extract_flow_from_file] and [run_basic_healthchecks] are collaborators
    defined elsewhere in prefect. *)
Context {Flow : Type} (flow_name : Flow → str).
Context (extract_flow_from_file : str → outcome Flow).

(** The attributes the methods of [Bitbucket] read or write.  The options
    consumed by [Storage.__init__] are not touched by any method below. *)
Record Bitbucket : Type := mkBitbucket {
  flows : gmap (list N) (option (list N));
  _flows : gmap (list N) Flow;
  repo : str;
  path : option str;
  _client : BitbucketClient
}.

Context (run_basic_healthchecks : Bitbucket → outcome unit).

(** [Bitbucket.__init__] *)
Definition Bitbucket_init (repo : str) (path host : option str) : Bitbucket :=
  {| flows := ∅; _flows := ∅; repo := repo; path := path;
     _client := BitbucketClient_init None host |}.

(** [Bitbucket.default_labels] *)
Definition default_labels (self : Bitbucket) : list str :=
  [lit "bitbucket-flow-storage"].

(** [dict.values()], read only through [in]: the order does not matter. *)
Definition dict_values {V} (d : gmap (list N) V) : list V :=
  (map_to_list d).*2.

(** Modelled from the spec: [Storage.__contains__], which [name in self]
    calls, is defined in the base class, outside the two modules; the spec
    reads it as "[name] already present in the registry". *)
Definition contains (self : Bitbucket) (name : str) : bool :=
  bool_decide (is_Some (flows self !! name)).

(** The messages of the three [ValueError]s of the storage. *)
Definition not_contained : str := lit "Flow is not contained in this storage".

Definition no_location : str := lit "No flow location provided".

Definition name_conflict (name : str) : str :=
  lit "Name conflict: Flow with the name " ++ dquote ++ name ++ dquote
    ++ lit " is already present in this storage.".

(** [Bitbucket.get_flow] *)
Definition get_flow (self : Bitbucket) (flow_location : option str)
    : IO Flow :=
  let* flow_location :=
    if truthy flow_location then
      if negb (bool_decide (flow_location ∈ dict_values (flows self))) then
        raise (ValueError not_contained)
      else ret (default [] flow_location)
    else if truthy (path self) then
      ret (default [] (path self))
    else
      raise (ValueError no_location) in
  let* content :=
    get_contents (_client self) (repo self) flow_location (lit "master") in
  lift (extract_flow_from_file content).

(** [Bitbucket.add_flow]: the outcome, and the storage after the call. *)
Definition add_flow (self : Bitbucket) (flow : Flow)
    : outcome (option str) * Bitbucket :=
  if contains self (flow_name flow) then
    (Raised (ValueError (name_conflict (flow_name flow))), self)
  else
    let self :=
      {| flows := <[ flow_name flow := path self ]> (flows self);
         _flows := _flows self; repo := repo self; path := path self;
         _client := _client self |} in
    let self :=
      {| flows := flows self;
         _flows := <[ flow_name flow := flow ]> (_flows self);
         repo := repo self; path := path self; _client := _client self |} in
    (Returned (path self), self).

(** The storage after [add_flow], and after a series of them. *)
Definition after_add (self : Bitbucket) (flow : Flow) : Bitbucket :=
  snd (add_flow self flow).

Definition after_adds (self : Bitbucket) (history : list Flow) : Bitbucket :=
  fold_left after_add history self.

(** Every value of the registry is the default path. *)
Definition single_path (self : Bitbucket) : Prop :=
  ∀ name location, flows self !! name = Some location → location = path self.

(** The two registries hold the same names. *)
Definition aligned (self : Bitbucket) : Prop :=
  dom (flows self) = dom (_flows self).

(** [Bitbucket.build] *)
Definition build (self : Bitbucket) : outcome Bitbucket :=
  match run_basic_healthchecks self with
  | Returned _ => Returned self
  | Raised e => Raised e
  end.

(* ------------------------------------------------------------------ *)
(** ** Facts about strings and the codec *)

Lemma parse_format_int (n : Z) : parse_int (format_int n) = Some n.
Proof.
  unfold parse_int, format_int, lit.
  rewrite map_map, (map_ext _ id), map_id, string_of_list_ascii_of_string
    by apply ascii_N_embedding.
  rewrite NilZero.isi.
  - cbn. by rewrite DecimalZ.of_to.
  - destruct n as [|p|p]; cbn; try discriminate.
    intros [= E]. by apply (Unsigned.to_uint_nonnil p).
  - destruct n as [|p|p]; cbn; try discriminate.
    intros [= E]. by apply (Unsigned.to_uint_nonnil p).
Qed.

Lemma format_int_inj (n m : Z) : format_int n = format_int m → n = m.
Proof.
  intros E. apply (f_equal parse_int) in E.
  rewrite !parse_format_int in E. congruence.
Qed.

Lemma mentions_here (before needle after : str) :
  mentions (before ++ needle ++ after) needle.
Proof. by exists before, after. Qed.

Lemma mentions_later (skip haystack needle : str) :
  mentions haystack needle → mentions (skip ++ haystack) needle.
Proof.
  intros (before & after & ->). exists (skip ++ before), after.
  by rewrite <- app_assoc.
Qed.

Lemma to_N_byte_of_N (n : N) :
  (n < 256)%N → Byte.to_N (Utf8.byte_of_N n) = n.
Proof.
  intros Hn. unfold Utf8.byte_of_N.
  destruct (Byte.of_N n) as [b|] eqn:E.
  - by apply Byte.to_of_N.
  - apply Byte.of_N_None_iff in E. lia.
Qed.

(** The base-64 digits of a code point, as the encoder slices them. *)
Lemma utf8_digits (c : N) :
  ∃ q1 q2 q3 r1 r2 r3 : N,
    (c / 64 = q1 ∧ c mod 64 = r1 ∧ c / 4096 = q2 ∧ (c / 64) mod 64 = r2 ∧
     c / 262144 = q3 ∧ (c / 4096) mod 64 = r3 ∧
     c = 64 * q1 + r1 ∧ q1 = 64 * q2 + r2 ∧ q2 = 64 * q3 + r3 ∧
     r1 < 64 ∧ r2 < 64 ∧ r3 < 64)%N.
Proof.
  assert (E2 : (c / 4096 = c / 64 / 64)%N) by (by rewrite N.Div0.div_div).
  assert (E3 : (c / 262144 = c / 64 / 64 / 64)%N)
    by (by rewrite !N.Div0.div_div).
  exists (c / 64)%N, (c / 64 / 64)%N, (c / 64 / 64 / 64)%N,
    (c mod 64)%N, ((c / 64) mod 64)%N, ((c / 64 / 64) mod 64)%N.
  rewrite E2, E3.
  pose proof (N.div_mod c 64). pose proof (N.mod_lt c 64).
  pose proof (N.div_mod (c / 64) 64). pose proof (N.mod_lt (c / 64) 64).
  pose proof (N.div_mod (c / 64 / 64) 64).
  pose proof (N.mod_lt (c / 64 / 64) 64).
  repeat split; auto; lia.
Qed.

Ltac decide_tests :=
  repeat match goal with
  | |- context [N.eqb ?a ?b] => destruct (N.eqb_spec a b); try lia
  | |- context [N.ltb ?a ?b] => destruct (N.ltb_spec a b); try lia
  | |- context [N.leb ?a ?b] => destruct (N.leb_spec a b); try lia
  end.

Lemma utf8_decode_encode1 (c : N) (rest : list byte) :
  Utf8.scalar c →
  Utf8.decode (Utf8.encode1 c ++ rest) = cons c <$> Utf8.decode rest.
Proof.
  intros Hc. unfold Utf8.encode1, Utf8.scalar in *.
  destruct (utf8_digits c)
    as (q1 & q2 & q3 & r1 & r2 & r3 & -> & -> & -> & -> & -> & -> & ?).
  destruct (N.ltb_spec c 0x80) as [H1|H1];
    [|destruct (N.ltb_spec c 0x800) as [H2|H2];
      [|destruct (N.ltb_spec c 0x10000) as [H3|H3]]];
  cbn [app Utf8.decode]; rewrite !to_N_byte_of_N by lia;
  unfold Utf8.is_cont, Utf8.between, Utf8.second_lo, Utf8.second_hi;
  cbv zeta; decide_tests; cbn [andb]; f_equal; f_equal; lia.
Qed.

(** Decoding what the encoder produced gives the text back. *)
Lemma utf8_decode_encode (text : str) :
  Forall Utf8.scalar text → Utf8.decode (Utf8.encode text) = Some text.
Proof.
  induction 1 as [|c text Hc _ IH]; [done|].
  unfold Utf8.encode in *. cbn [flat_map].
  rewrite utf8_decode_encode1 by done. by rewrite IH.
Qed.

Lemma byte_of_N_to_N (b : byte) : Utf8.byte_of_N (Byte.to_N b) = b.
Proof. unfold Utf8.byte_of_N. by rewrite Byte.of_to_N. Qed.

Ltac slice c :=
  unfold Utf8.encode1, Utf8.scalar;
  destruct (utf8_digits c)
    as (q1 & q2 & q3 & r1 & r2 & r3 & -> & -> & -> & -> & -> & -> & ?).

Lemma utf8_encode1_two (n0 n1 : N) :
  (0xC2 <= n0 < 0xE0 → 0x80 <= n1 <= 0xBF →
   let c := (n0 - 0xC0) * 64 + (n1 - 0x80) in
   Utf8.encode1 c = [Utf8.byte_of_N n0; Utf8.byte_of_N n1] ∧ Utf8.scalar c)%N.
Proof.
  intros H0 H1 c. slice c.
  assert (q1 = n0 - 0xC0 ∧ r1 = n1 - 0x80)%N as [-> ->] by lia.
  decide_tests. split; [|lia]. repeat f_equal; lia.
Qed.

Lemma utf8_encode1_three (n0 n1 n2 : N) :
  (0xE0 <= n0 < 0xF0 → Utf8.second_lo n0 <= n1 <= Utf8.second_hi n0 →
   0x80 <= n2 <= 0xBF →
   let c := (n0 - 0xE0) * 4096 + (n1 - 0x80) * 64 + (n2 - 0x80) in
   Utf8.encode1 c
     = [Utf8.byte_of_N n0; Utf8.byte_of_N n1; Utf8.byte_of_N n2]
   ∧ Utf8.scalar c)%N.
Proof.
  intros H0 H1 H2 c. unfold Utf8.second_lo, Utf8.second_hi in H1.
  revert H1. decide_tests; intros H1; slice c;
  (assert (q2 = n0 - 0xE0 ∧ r2 = n1 - 0x80 ∧ r1 = n2 - 0x80)%N
    as (-> & -> & ->) by lia);
  decide_tests; (split; [|lia]); repeat f_equal; lia.
Qed.

Lemma utf8_encode1_four (n0 n1 n2 n3 : N) :
  (0xF0 <= n0 < 0xF5 → Utf8.second_lo n0 <= n1 <= Utf8.second_hi n0 →
   0x80 <= n2 <= 0xBF → 0x80 <= n3 <= 0xBF →
   let c := (n0 - 0xF0) * 262144 + (n1 - 0x80) * 4096 + (n2 - 0x80) * 64
            + (n3 - 0x80) in
   Utf8.encode1 c
     = [Utf8.byte_of_N n0; Utf8.byte_of_N n1; Utf8.byte_of_N n2;
        Utf8.byte_of_N n3]
   ∧ Utf8.scalar c)%N.
Proof.
  intros H0 H1 H2 H3 c. unfold Utf8.second_lo, Utf8.second_hi in H1.
  revert H1. decide_tests; intros H1; slice c;
  (assert (q3 = n0 - 0xF0 ∧ r3 = n1 - 0x80 ∧ r2 = n2 - 0x80
           ∧ r1 = n3 - 0x80)%N
    as (-> & -> & -> & ->) by lia);
  decide_tests; (split; [|lia]); repeat f_equal; lia.
Qed.

Ltac decide_hyp H :=
  repeat match type of H with
  | context [N.ltb ?a ?b] => destruct (N.ltb_spec a b)
  | context [N.leb ?a ?b] => destruct (N.leb_spec a b)
  end; cbn [andb] in H; try discriminate H.

(** Whatever the decoder accepts is the encoding of the text it returns:
    no two bodies decode to the same text. *)
Lemma utf8_encode_decode (bs : list byte) (text : str) :
  Utf8.decode bs = Some text →
  Utf8.encode text = bs ∧ Forall Utf8.scalar text.
Proof.
  remember (length bs) as n eqn:Hn. revert bs text Hn.
  induction (lt_wf n) as [n _ IH]. intros bs text -> Hdec.
  assert (∀ rest c spent,
            bs = spent ++ rest → spent ≠ [] →
            cons c <$> Utf8.decode rest = Some text →
            Utf8.encode1 c = spent ∧ Utf8.scalar c →
            Utf8.encode text = bs ∧ Forall Utf8.scalar text) as Hstep.
  { intros rest c spent -> Hspent Hrest [Henc Hc].
    destruct (Utf8.decode rest) as [text'|] eqn:E; [|done].
    injection Hrest as <-.
    destruct (IH (length rest)) with (bs := rest) (text := text')
      as [Hrest Hall]; [|done|done|].
    - rewrite length_app. destruct spent; [done|]. cbn [length]. lia.
    - split; [|by constructor].
      unfold Utf8.encode in *. cbn [flat_map]. by rewrite Henc, Hrest. }
  destruct bs as [|b0 t0]; [by injection Hdec as <-|].
  cbn [Utf8.decode] in Hdec. cbv zeta in Hdec.
  unfold Utf8.is_cont, Utf8.between in Hdec.
  destruct (N.ltb_spec (Byte.to_N b0) 0x80).
  { apply (Hstep t0 (Byte.to_N b0) [b0]); [done|done|done|].
    unfold Utf8.encode1, Utf8.scalar. decide_tests.
    rewrite byte_of_N_to_N. split; [done|lia]. }
  destruct (N.ltb_spec (Byte.to_N b0) 0xC2); [done|].
  destruct (N.ltb_spec (Byte.to_N b0) 0xE0).
  { destruct t0 as [|b1 t1]; [done|]. decide_hyp Hdec.
    eapply (Hstep t1 _ [b0; b1]); [done|done|exact Hdec|].
    rewrite <- (byte_of_N_to_N b0) at 2. rewrite <- (byte_of_N_to_N b1) at 2.
    apply utf8_encode1_two; lia. }
  destruct (N.ltb_spec (Byte.to_N b0) 0xF0).
  { destruct t0 as [|b1 [|b2 t2]]; [done|done|]. decide_hyp Hdec.
    eapply (Hstep t2 _ [b0; b1; b2]); [done|done|exact Hdec|].
    rewrite <- (byte_of_N_to_N b0) at 2. rewrite <- (byte_of_N_to_N b1) at 2.
    rewrite <- (byte_of_N_to_N b2) at 2.
    apply utf8_encode1_three; lia. }
  destruct (N.ltb_spec (Byte.to_N b0) 0xF5); [|done].
  destruct t0 as [|b1 [|b2 [|b3 t3]]]; [done|done|done|]. decide_hyp Hdec.
  eapply (Hstep t3 _ [b0; b1; b2; b3]); [done|done|exact Hdec|].
  rewrite <- (byte_of_N_to_N b0) at 2. rewrite <- (byte_of_N_to_N b1) at 2.
  rewrite <- (byte_of_N_to_N b2) at 2. rewrite <- (byte_of_N_to_N b3) at 2.
  apply utf8_encode1_four; lia.
Qed.
(* ------------------------------------------------------------------ *)
(** ** Facts about [BitbucketClient] *)

(** [_request] logs its request, and turns a 401 answer into the
    authentication error; any other answer is handed back untouched. *)
Lemma _request_run self method url body content_type params log :
  _request self method url body content_type params log =
  (match
     transport log (request_sent self method url body content_type params)
   with
   | Returned response =>
     if status_code response =? 401
     then Raised (ValueError authentication_failed)
     else Returned response
   | Raised e => Raised e
   end,
   log ++ [request_sent self method url body content_type params]).
Proof.
  unfold _request, bind, session_request, request_sent.
  destruct (transport log _) as [response|e]; [|done].
  by destruct (status_code response =? 401).
Qed.

(** [get_contents] issues one request, whatever comes back. *)
Lemma get_contents_log self repo path branch log :
  snd (get_contents self repo path branch log) =
  log ++ [contents_request self repo path branch].
Proof.
  unfold get_contents, bind. rewrite _request_run.
  fold (contents_request self repo path branch).
  destruct (transport log _) as [response|e]; [|done].
  destruct (status_code response =? 401); [done|].
  destruct (status_code response =? 404); [done|].
  destruct (negb _); [done|].
  by destruct (Utf8.decode _).
Qed.

(** [get_contents] when the HTTP layer itself raises. *)
Lemma get_contents_transport_error self repo path branch log e :
  transport log (contents_request self repo path branch) = Raised e →
  get_contents self repo path branch log =
  (Raised e, log ++ [contents_request self repo path branch]).
Proof.
  intros H. unfold get_contents, bind. rewrite _request_run.
  fold (contents_request self repo path branch). by rewrite H.
Qed.

(** [get_contents] when the HTTP layer answers: the status decides. *)
Lemma get_contents_answered self repo path branch log response :
  transport log (contents_request self repo path branch) = Returned response →
  get_contents self repo path branch log =
  (if status_code response =? 401 then
     Raised (ValueError authentication_failed)
   else if status_code response =? 404 then
     Raised (ValueError (no_file_found path repo branch))
   else if (200 <=? status_code response) && (status_code response <? 300)
   then
     match Utf8.decode (content response) with
     | Some text => Returned text
     | None => Raised UnicodeDecodeError
     end
   else Raised (ValueError (request_failed (status_code response))),
   log ++ [contents_request self repo path branch]).
Proof.
  intros H. unfold get_contents, bind. rewrite _request_run.
  fold (contents_request self repo path branch). rewrite H.
  destruct (status_code response =? 401); [done|].
  unfold raise, ret.
  destruct (status_code response =? 404); [done|].
  destruct ((200 <=? status_code response) && _); cbn [negb]; [|done].
  by destruct (Utf8.decode _).
Qed.

(** C3. For all [repo], [path] and [branch]: a client constructed with a
    (non-empty) host asks for [{host}/projects/{repo}/browse/{path}?raw&at={branch}],
    a client constructed without a host asks for
    [{CLOUD_API}/repositories/{repo}/src/{branch}/{path}], where [CLOUD_API]
    is [https://api.bitbucket.org/2.0]; in both modes it is the URL of the
    one GET request that [get_contents] issues. *)
Theorem get_contents_url credentials (h repo path branch : str) log :
  h ≠ [] →
  let server := BitbucketClient_init credentials (Some h) in
  let cloud := BitbucketClient_init credentials None in
  snd (get_contents server repo path branch log) =
    log ++ [request_sent server (lit "GET")
              (h ++ lit "/projects/" ++ repo ++ lit "/browse/" ++ path
                 ++ lit "?raw&at=" ++ branch)
              None None None]
  ∧ snd (get_contents cloud repo path branch log) =
    log ++ [request_sent cloud (lit "GET")
              (CLOUD_API ++ lit "/repositories/" ++ repo ++ lit "/src/"
                 ++ branch ++ lit "/" ++ path)
              None None None]
  ∧ CLOUD_API = lit "https://api.bitbucket.org/2.0".
Proof.
  intros Hh server cloud. rewrite !get_contents_log.
  unfold contents_request, contents_url.
  replace (host server) with (Some h)
    by (unfold server, BitbucketClient_init; by destruct (truthy_dict _)).
  replace (host cloud) with (@None (list N))
    by (unfold cloud, BitbucketClient_init; by destruct (truthy_dict _)).
  destruct h as [|c h]; [done|]. by cbn [truthy default].
Qed.

(** An empty host is no host: the client is in cloud mode. *)
Lemma contents_url_empty_host self repo path branch :
  host self = Some [] →
  contents_url self repo path branch =
  CLOUD_API ++ lit "/repositories/" ++ repo ++ lit "/src/" ++ branch
    ++ lit "/" ++ path.
Proof. intros H. unfold contents_url. by rewrite H. Qed.

(** C4, amended. Whatever the request and whatever the requested path, a 401
    answer raises the authentication error, whose message is
    [Bitbucket authentication failed, please check your credentials.]; the
    check comes first, so that [get_contents] reports a 401 neither as a
    missing file nor as a failed request. *)
Theorem unauthorized_raises_first self log response :
  status_code response = 401 →
  (∀ method url body content_type params,
     transport log (request_sent self method url body content_type params)
       = Returned response →
     _request self method url body content_type params log =
     (Raised (ValueError authentication_failed),
      log ++ [request_sent self method url body content_type params]))
  ∧ (∀ repo path branch,
       transport log (contents_request self repo path branch)
         = Returned response →
       get_contents self repo path branch log =
       (Raised (ValueError authentication_failed),
        log ++ [contents_request self repo path branch])
       ∧ authentication_failed ≠ no_file_found path repo branch
       ∧ authentication_failed ≠ request_failed (status_code response))
  ∧ authentication_failed =
    lit "Bitbucket authentication failed, please check your credentials.".
Proof.
  intros H401. split; [|split; [|done]].
  - intros method url body content_type params Ht.
    by rewrite _request_run, Ht, H401.
  - intros repo path branch Ht. split; [|split].
    + by rewrite (get_contents_answered _ _ _ _ _ _ Ht), H401.
    + discriminate.
    + discriminate.
Qed.

(** C5, amended. When the answer to [get_contents] has a status other than
    401 and outside [200, 300): a 404 raises the error whose message is
    [No file found at `<path>` in repo `<repo>@<branch>`], which mentions the
    path, the repo and the branch; any other such status raises the error
    [Request to Bitbucket failed with <status>], from which the numeric
    status can be read back. *)
Theorem get_contents_failure self repo path branch log response :
  transport log (contents_request self repo path branch) = Returned response →
  status_code response ≠ 401 →
  ¬ (200 ≤ status_code response < 300) →
  get_contents self repo path branch log =
    (Raised (ValueError
       (if status_code response =? 404
        then lit "No file found at `" ++ path ++ lit "` in repo `" ++ repo
               ++ lit "@" ++ branch ++ lit "`"
        else lit "Request to Bitbucket failed with "
               ++ format_int (status_code response))),
     log ++ [contents_request self repo path branch])
  ∧ mentions (no_file_found path repo branch) path
  ∧ mentions (no_file_found path repo branch) repo
  ∧ mentions (no_file_found path repo branch) branch
  ∧ parse_int (format_int (status_code response))
    = Some (status_code response).
Proof.
  intros Ht H401 H2xx.
  rewrite (get_contents_answered _ _ _ _ _ _ Ht).
  split; [|split; [|split; [|split]]].
  - destruct (Z.eqb_spec (status_code response) 401); [done|].
    destruct (Z.eqb_spec (status_code response) 404); [done|].
    destruct (Z.leb_spec 200 (status_code response));
      destruct (Z.ltb_spec (status_code response) 300);
      cbn [andb]; first [done | lia].
  - unfold no_file_found. apply mentions_here.
  - unfold no_file_found. do 2 apply mentions_later. apply mentions_here.
  - unfold no_file_found. do 4 apply mentions_later. apply mentions_here.
  - apply parse_format_int.
Qed.

(** C9, amended. When the answer has a 2xx status and its body is valid
    UTF-8, [get_contents] returns the body decoded as UTF-8 and nothing
    else: the text that the body encodes comes back code point for code
    point, and a text that comes back encodes to the body byte for byte.
    When the body of a 2xx answer is not valid UTF-8, nothing is returned:
    [get_contents] raises [UnicodeDecodeError]. *)
Theorem get_contents_success self repo path branch log response :
  transport log (contents_request self repo path branch) = Returned response →
  200 ≤ status_code response < 300 →
  get_contents self repo path branch log =
    (match Utf8.decode (content response) with
     | Some text => Returned text
     | None => Raised UnicodeDecodeError
     end,
     log ++ [contents_request self repo path branch])
  ∧ (∀ text,
       Forall Utf8.scalar text →
       content response = Utf8.encode text →
       get_contents self repo path branch log =
       (Returned text, log ++ [contents_request self repo path branch]))
  ∧ (∀ text,
       fst (get_contents self repo path branch log) = Returned text →
       Utf8.encode text = content response).
Proof.
  intros Ht H2xx.
  assert (get_contents self repo path branch log =
    (match Utf8.decode (content response) with
     | Some text => Returned text
     | None => Raised UnicodeDecodeError
     end,
     log ++ [contents_request self repo path branch])) as Hrun.
  { rewrite (get_contents_answered _ _ _ _ _ _ Ht).
    destruct (Z.eqb_spec (status_code response) 401); [lia|].
    destruct (Z.eqb_spec (status_code response) 404); [lia|].
    destruct (Z.leb_spec 200 (status_code response)); [|lia].
    destruct (Z.ltb_spec (status_code response) 300); [|lia].
    done. }
  split; [done|]. split.
  - intros text Hscalar Hbody.
    by rewrite Hrun, Hbody, utf8_decode_encode.
  - intros text. rewrite Hrun. cbn [fst].
    destruct (Utf8.decode (content response)) as [text'|] eqn:E; [|done].
    intros [= <-]. by apply utf8_encode_decode.
Qed.

(* ------------------------------------------------------------------ *)
(** ** Facts about [Bitbucket] *)

Lemma elem_of_dict_values {V} (d : gmap (list N) V) (v : V) :
  v ∈ dict_values d ↔ ∃ k, d !! k = Some v.
Proof.
  unfold dict_values. rewrite list_elem_of_fmap. split.
  - intros ([k v'] & -> & Hin). exists k. by apply elem_of_map_to_list.
  - intros (k & Hk). exists (k, v). split; [done|].
    by apply elem_of_map_to_list.
Qed.

Lemma contains_true self name :
  contains self name = true ↔ is_Some (flows self !! name).
Proof. unfold contains. apply bool_decide_eq_true. Qed.

Lemma contains_false self name :
  contains self name = false ↔ flows self !! name = None.
Proof.
  unfold contains. rewrite bool_decide_eq_false.
  by rewrite eq_None_not_Some.
Qed.

(** [add_flow] on a name that the registry does not hold. *)
Lemma add_flow_fresh self flow :
  contains self (flow_name flow) = false →
  add_flow self flow =
  (Returned (path self),
   {| flows := <[ flow_name flow := path self ]> (flows self);
      _flows := <[ flow_name flow := flow ]> (_flows self);
      repo := repo self; path := path self; _client := _client self |}).
Proof. intros H. unfold add_flow. by rewrite H. Qed.

(** [add_flow] on a name that the registry holds. *)
Lemma add_flow_taken self flow :
  contains self (flow_name flow) = true →
  add_flow self flow =
  (Raised (ValueError (name_conflict (flow_name flow))), self).
Proof. intros H. unfold add_flow. by rewrite H. Qed.

(** [add_flow] writes neither [repo], nor [path], nor the client. *)
Lemma after_add_frame self flow :
  repo (after_add self flow) = repo self
  ∧ path (after_add self flow) = path self
  ∧ _client (after_add self flow) = _client self.
Proof.
  unfold after_add, add_flow. by destruct (contains self (flow_name flow)).
Qed.

Lemma after_adds_frame self history :
  repo (after_adds self history) = repo self
  ∧ path (after_adds self history) = path self
  ∧ _client (after_adds self history) = _client self.
Proof.
  revert self. induction history as [|flow history IH]; intros self; [done|].
  cbn [after_adds fold_left]. fold (after_adds (after_add self flow) history).
  destruct (IH (after_add self flow)) as (-> & -> & ->).
  apply after_add_frame.
Qed.

(** Once [add_flow] was called with a name, the registry holds it. *)
Lemma contains_after_add self flow :
  contains (after_add self flow) (flow_name flow) = true.
Proof.
  unfold after_add, add_flow.
  destruct (contains self (flow_name flow)) eqn:E; cbn [snd]; [done|].
  apply contains_true. cbn [flows]. rewrite lookup_insert_eq. by eexists.
Qed.

(** Entries are never removed. *)
Lemma contains_after_add_mono self flow name :
  contains self name = true → contains (after_add self flow) name = true.
Proof.
  intros H. unfold after_add, add_flow.
  destruct (contains self (flow_name flow)) eqn:E; cbn [snd]; [done|].
  apply contains_true in H. apply contains_true. cbn [flows].
  destruct (decide (flow_name flow = name)) as [->|Hne].
  - rewrite lookup_insert_eq. by eexists.
  - by rewrite lookup_insert_ne.
Qed.

Lemma contains_after_adds_mono self history name :
  contains self name = true → contains (after_adds self history) name = true.
Proof.
  revert self. induction history as [|flow history IH]; intros self H; [done|].
  cbn [after_adds fold_left]. apply IH. by apply contains_after_add_mono.
Qed.

Lemma single_path_init repo0 path0 host0 :
  single_path (Bitbucket_init repo0 path0 host0).
Proof. intros name location. cbn [Bitbucket_init flows]. by rewrite lookup_empty. Qed.

Lemma single_path_after_add self flow :
  single_path self → single_path (after_add self flow).
Proof.
  intros Hinv name location. unfold after_add, add_flow.
  destruct (contains self (flow_name flow)); cbn [snd flows path].
  - apply Hinv.
  - destruct (decide (flow_name flow = name)) as [->|Hne].
    + rewrite lookup_insert_eq. congruence.
    + rewrite lookup_insert_ne by done. apply Hinv.
Qed.

Lemma single_path_after_adds self history :
  single_path self → single_path (after_adds self history).
Proof.
  revert self. induction history as [|flow history IH]; intros self H; [done|].
  cbn [after_adds fold_left]. apply IH. by apply single_path_after_add.
Qed.

Lemma aligned_after_add self flow : aligned self → aligned (after_add self flow).
Proof.
  unfold aligned, after_add, add_flow. intros H.
  destruct (contains self (flow_name flow)); cbn [snd flows _flows]; [done|].
  by rewrite !dom_insert_L, H.
Qed.

Lemma aligned_after_adds self history :
  aligned self → aligned (after_adds self history).
Proof.
  revert self. induction history as [|flow history IH]; intros self H; [done|].
  cbn [after_adds fold_left]. apply IH. by apply aligned_after_add.
Qed.

(** The location that [get_flow] fetches, once it has settled on one. *)
Lemma get_flow_fetch self flow_location (location : str) log :
  (truthy flow_location = true ∧ flow_location = Some location
     ∧ ∃ name, flows self !! name = Some (Some location))
  ∨ (truthy flow_location = false ∧ truthy (path self) = true
     ∧ path self = Some location) →
  get_flow self flow_location log =
  (let* content :=
     get_contents (_client self) (repo self) location (lit "master") in
   lift (extract_flow_from_file content)) log.
Proof.
  intros [(Ht & -> & name & Hname)|(Ht & Hp & Hpath)];
    unfold get_flow; rewrite Ht.
  - rewrite bool_decide_eq_true_2; [done|].
    apply elem_of_dict_values. by exists name.
  - by rewrite Hp, Hpath.
Qed.

(** [get_flow] with a non-empty location: membership among the values of
    the registry decides between the fetch and the error. *)
Lemma get_flow_given self (location : str) log :
  location ≠ [] →
  get_flow self (Some location) log =
  if bool_decide (Some location ∈ dict_values (flows self)) then
    (let* content :=
       get_contents (_client self) (repo self) location (lit "master") in
     lift (extract_flow_from_file content)) log
  else (Raised (ValueError not_contained), log).
Proof.
  intros Hne. unfold get_flow.
  destruct location as [|c location]; [done|]. cbn [truthy].
  by destruct (bool_decide _).
Qed.

(** C1. A call of [get_flow] with a non-empty location that is not among the
    values of the registry raises the error [Flow is not contained in this
    storage], and nothing is fetched: the log of requests is as it was. *)
Theorem get_flow_not_contained self (location : str) log :
  location ≠ [] →
  Some location ∉ dict_values (flows self) →
  get_flow self (Some location) log = (Raised (ValueError not_contained), log).
Proof.
  intros Hne Hnone. rewrite get_flow_given by done.
  by rewrite bool_decide_eq_false_2.
Qed.

(** On a storage as constructed and filled by [add_flow], the only location
    that can be asked for is the default path. *)
Lemma get_flow_other_location repo0 path0 host0 history (location : str) log :
  location ≠ [] →
  path0 ≠ Some location →
  get_flow (after_adds (Bitbucket_init repo0 path0 host0) history)
    (Some location) log
  = (Raised (ValueError not_contained), log).
Proof.
  intros Hne Hother. rewrite get_flow_given by done.
  rewrite bool_decide_eq_false_2; [done|].
  rewrite elem_of_dict_values. intros (name & Hname).
  apply (single_path_after_adds _ history (single_path_init repo0 path0 host0))
    in Hname.
  destruct (after_adds_frame (Bitbucket_init repo0 path0 host0) history)
    as (_ & Hpath & _).
  rewrite Hpath in Hname. cbn [Bitbucket_init path] in Hname. congruence.
Qed.

(** C2. On a storage constructed with [path0] (and filled by any series of
    [add_flow]), registering a flow whose name is not yet registered stores
    [path0] under the name, remembers the flow object under the name, and
    returns [path0]; afterwards every registered name resolves to [path0]. *)
Theorem add_flow_default_path repo0 path0 host0 history flow :
  let self := after_adds (Bitbucket_init repo0 path0 host0) history in
  contains self (flow_name flow) = false →
  add_flow self flow =
    (Returned path0,
     {| flows := <[ flow_name flow := path0 ]> (flows self);
        _flows := <[ flow_name flow := flow ]> (_flows self);
        repo := repo0; path := path0;
        _client := BitbucketClient_init None host0 |})
  ∧ flows (after_add self flow) !! flow_name flow = Some path0
  ∧ _flows (after_add self flow) !! flow_name flow = Some flow
  ∧ ∀ name, is_Some (flows (after_add self flow) !! name) →
            flows (after_add self flow) !! name = Some path0.
Proof.
  intros self Hfresh.
  destruct (after_adds_frame (Bitbucket_init repo0 path0 host0) history)
    as (Hrepo & Hpath & Hclient).
  fold self in Hrepo, Hpath, Hclient.
  cbn [Bitbucket_init repo path _client] in Hrepo, Hpath, Hclient.
  assert (add_flow self flow =
    (Returned path0,
     {| flows := <[ flow_name flow := path0 ]> (flows self);
        _flows := <[ flow_name flow := flow ]> (_flows self);
        repo := repo0; path := path0;
        _client := BitbucketClient_init None host0 |})) as Hrun.
  { rewrite (add_flow_fresh _ _ Hfresh). by rewrite Hrepo, Hpath, Hclient. }
  split; [done|]. unfold after_add. rewrite Hrun. cbn [snd flows _flows].
  split; [apply lookup_insert_eq|]. split; [apply lookup_insert_eq|].
  intros name [location Hname]. rewrite Hname. f_equal.
  assert (single_path (after_add self flow)) as Hinv.
  { apply single_path_after_add, single_path_after_adds, single_path_init. }
  unfold after_add in Hinv. rewrite Hrun in Hinv.
  by apply (Hinv name location).
Qed.

(** C6. After a call of [add_flow] with a name, every further call with the
    same name, at once or after other registrations, raises the error
    [Name conflict: ...] and leaves the storage alone: a name is registered
    at most once. *)
Theorem add_flow_twice self flow later again :
  flow_name again = flow_name flow →
  add_flow (after_adds (after_add self flow) later) again =
  (Raised (ValueError (name_conflict (flow_name flow))),
   after_adds (after_add self flow) later).
Proof.
  intros Hname. rewrite <- Hname. apply add_flow_taken. rewrite Hname.
  apply contains_after_adds_mono, contains_after_add.
Qed.

(** C7. On a storage constructed with a non-empty default path [path0],
    [get_flow] without a location fetches [(repo0, path0, "master")] from
    the client, by one request, and returns what [extract_flow_from_file]
    makes of the fetched content. *)
Theorem get_flow_default repo0 (path0 : str) host0 history location log :
  path0 ≠ [] →
  truthy location = false →
  let self := after_adds (Bitbucket_init repo0 (Some path0) host0) history in
  get_flow self location log =
    (let* content :=
       get_contents (BitbucketClient_init None host0) repo0 path0
         (lit "master") in
     lift (extract_flow_from_file content)) log
  ∧ snd (get_flow self location log) =
    log ++ [contents_request (BitbucketClient_init None host0) repo0 path0
              (lit "master")]
  ∧ ∀ content,
      fst (get_contents (BitbucketClient_init None host0) repo0 path0
             (lit "master") log) = Returned content →
      fst (get_flow self location log) = extract_flow_from_file content.
Proof.
  intros Hne Hloc self.
  destruct (after_adds_frame (Bitbucket_init repo0 (Some path0) host0) history)
    as (Hrepo & Hpath & Hclient).
  fold self in Hrepo, Hpath, Hclient.
  cbn [Bitbucket_init repo path _client] in Hrepo, Hpath, Hclient.
  assert (get_flow self location log =
    (let* content :=
       get_contents (BitbucketClient_init None host0) repo0 path0
         (lit "master") in
     lift (extract_flow_from_file content)) log) as Hrun.
  { rewrite (get_flow_fetch self location path0).
    - by rewrite Hrepo, Hclient.
    - right. rewrite Hpath. by destruct path0. }
  split; [done|]. rewrite Hrun. unfold bind, lift.
  pose proof (get_contents_log (BitbucketClient_init None host0) repo0 path0
                (lit "master") log) as Hlog.
  destruct (get_contents _ _ _ _ log) as [[content|e] log'];
    cbn [fst snd] in *.
  - split; [done|]. by intros ? [= <-].
  - split; [done|]. by intros.
Qed.

(** The general form of C8: no usable location, no default path. *)
Lemma get_flow_no_location self location log :
  truthy location = false →
  truthy (path self) = false →
  get_flow self location log = (Raised (ValueError no_location), log).
Proof. intros Hl Hp. unfold get_flow. by rewrite Hl, Hp. Qed.

(** C8. On a storage constructed without a default path, [get_flow] without
    a location raises the error [No flow location provided], and nothing is
    fetched: the log of requests is as it was. *)
Theorem get_flow_missing_location repo0 host0 history log :
  get_flow (after_adds (Bitbucket_init repo0 None host0) history) None log =
  (Raised (ValueError no_location), log).
Proof.
  apply get_flow_no_location; [done|].
  destruct (after_adds_frame (Bitbucket_init repo0 None host0) history)
    as (_ & -> & _).
  done.
Qed.

(** C10. When [add_flow] raises, it is the name conflict, the name was
    present, and the storage after the call is the storage before it: both
    registries are as they were. *)
Theorem add_flow_error_unchanged self flow e self' :
  add_flow self flow = (Raised e, self') →
  e = ValueError (name_conflict (flow_name flow))
  ∧ contains self (flow_name flow) = true
  ∧ self' = self
  ∧ flows self' = flows self
  ∧ _flows self' = _flows self.
Proof.
  unfold add_flow.
  destruct (contains self (flow_name flow)); [|discriminate].
  by intros [= <- <-].
Qed.

(* ------------------------------------------------------------------ *)
(** ** Further facts about [BitbucketClient] *)

Lemma user_agent_not_content_type : lit "User-agent" ≠ lit "Content-type".
Proof. discriminate. Qed.

(** X1. A client built with a non-empty [credentials] dict authenticates
    with the two entries of that dict and never consults [prefect.context]:
    a key the dict lacks gives [None], and every request of [get_contents]
    carries that pair. *)
Theorem client_explicit_credentials
    (c : gmap (list N) (list N)) host repo path branch log :
  c ≠ ∅ →
  let self := BitbucketClient_init (Some c) host in
  auth (session self)
    = (c !! lit "BITBUCKET_USER", c !! lit "BITBUCKET_PASSWORD")
  ∧ ∃ req,
      snd (get_contents self repo path branch log) = log ++ [req]
      ∧ sent_auth req
        = (c !! lit "BITBUCKET_USER", c !! lit "BITBUCKET_PASSWORD").
Proof.
  intros Hc self.
  assert (auth (session self)
          = (c !! lit "BITBUCKET_USER", c !! lit "BITBUCKET_PASSWORD")) as Ha.
  { unfold self, BitbucketClient_init, truthy_dict.
    rewrite bool_decide_eq_false_2; [done|].
    by rewrite dom_empty_iff_L. }
  split; [done|].
  exists (contents_request self repo path branch).
  split; [apply get_contents_log|]. exact Ha.
Qed.

(** X3. [_request] hands exactly one request to the session, with the
    method, URL, body and params it was given and the [auth] of the session.
    Its headers are [User-agent: Prefect/<version>], plus [Content-type]
    exactly when a non-empty content type was given, and no other. *)
Theorem _request_sends self method url body content_type params log :
  ∃ req,
    snd (_request self method url body content_type params log) = log ++ [req]
    ∧ sent_method req = method ∧ sent_url req = url ∧ sent_data req = body
    ∧ sent_params req = params ∧ sent_auth req = auth (session self)
    ∧ sent_headers req !! lit "User-agent"
      = Some (lit "Prefect/" ++ prefect_version)
    ∧ sent_headers req !! lit "Content-type"
      = (if truthy content_type then content_type else None)
    ∧ dom (sent_headers req) ⊆ {[ lit "User-agent"; lit "Content-type" ]}.
Proof.
  clear run_basic_healthchecks extract_flow_from_file flow_name. clear Flow.
  exists (request_sent self method url body content_type params).
  rewrite _request_run. cbn [snd request_sent sent_method sent_url sent_data
    sent_params sent_auth sent_headers].
  repeat (split; [done|]).
  pose proof user_agent_not_content_type as Hne.
  unfold request_headers.
  destruct content_type as [[|ch ct]|]; cbn [truthy default];
    rewrite ?lookup_insert_eq, ?lookup_insert_ne, ?lookup_singleton_eq,
      ?lookup_singleton_ne, ?dom_insert_L, ?dom_singleton_L by done;
    repeat split; try done; set_solver.
Qed.

(** X4. [_request] raises on a 401 only: an answer with any other status,
    error statuses included, is handed back untouched. *)
Theorem _request_passes_other_statuses
    self method url body content_type params log response :
  transport log (request_sent self method url body content_type params)
    = Returned response →
  status_code response ≠ 401 →
  _request self method url body content_type params log =
  (Returned response,
   log ++ [request_sent self method url body content_type params]).
Proof.
  intros Ht H401. rewrite _request_run, Ht.
  by destruct (Z.eqb_spec (status_code response) 401).
Qed.

(** X5. [get_contents] returns a text only for an answer whose status lies
    in [200, 300) and whose body is UTF-8 for that text: no error status
    ever yields content. *)
Theorem get_contents_returns_only_2xx
    self repo path branch log response text :
  transport log (contents_request self repo path branch) = Returned response →
  fst (get_contents self repo path branch log) = Returned text →
  200 ≤ status_code response < 300
  ∧ Utf8.decode (content response) = Some text.
Proof.
  intros Ht. rewrite (get_contents_answered _ _ _ _ _ _ Ht). cbn [fst].
  destruct (status_code response =? 401); [done|].
  destruct (status_code response =? 404); [done|].
  destruct (Z.leb_spec 200 (status_code response));
    destruct (Z.ltb_spec (status_code response) 300); cbn [andb]; try done.
  destruct (Utf8.decode (content response)); [|done].
  intros [= ->]. split; [lia|done].
Qed.

(** X6. Whatever the outcome, the one request of [get_contents] is a [GET]
    without body and without params, whose only header is [User-agent]. *)
Theorem get_contents_request_shape self repo path branch log :
  ∃ req,
    snd (get_contents self repo path branch log) = log ++ [req]
    ∧ sent_method req = lit "GET"
    ∧ sent_data req = None
    ∧ sent_params req = None
    ∧ sent_headers req
      = {[ lit "User-agent" := lit "Prefect/" ++ prefect_version ]}.
Proof.
  exists (contents_request self repo path branch).
  split; [apply get_contents_log|]. done.
Qed.

(* ------------------------------------------------------------------ *)
(** ** Further facts about [Bitbucket] *)

Lemma dom_flows_after_add self flow :
  dom (flows (after_add self flow)) = dom (flows self) ∪ {[ flow_name flow ]}.
Proof.
  clear extract_flow_from_file run_basic_healthchecks.
  unfold after_add, add_flow.
  destruct (contains self (flow_name flow)) eqn:E; cbn [snd flows].
  - apply contains_true, elem_of_dom in E. set_solver.
  - rewrite dom_insert_L. set_solver.
Qed.

Lemma dom_flows_after_adds self history :
  dom (flows (after_adds self history))
  = dom (flows self) ∪ list_to_set (flow_name <$> history).
Proof.
  clear extract_flow_from_file run_basic_healthchecks.
  revert self. induction history as [|flow history IH]; intros self.
  - cbn. set_solver.
  - cbn [after_adds fold_left]. fold (after_adds (after_add self flow) history).
    rewrite IH, dom_flows_after_add. cbn [fmap list_fmap list_to_set].
    set_solver.
Qed.

(** X7. A storage on which nothing was registered rejects every non-empty
    location, its own default path included, without fetching. *)
Theorem get_flow_fresh_storage_rejects
    repo0 path0 host0 (location : str) log :
  location ≠ [] →
  get_flow (Bitbucket_init repo0 path0 host0) (Some location) log
  = (Raised (ValueError not_contained), log).
Proof.
  intros Hne. rewrite get_flow_given by done.
  rewrite bool_decide_eq_false_2; [done|].
  rewrite elem_of_dict_values. intros (name & Hname).
  cbn [Bitbucket_init flows] in Hname. by rewrite lookup_empty in Hname.
Qed.

(** X8. A storage constructed without a path ([None] or the empty string)
    never fetches: whatever was registered and whatever location is asked
    for, [get_flow] raises one of its two errors and issues no request. *)
Theorem get_flow_without_path_never_fetches
    repo0 path0 host0 history location log :
  truthy path0 = false →
  ∃ msg,
    get_flow (after_adds (Bitbucket_init repo0 path0 host0) history)
      location log
    = (Raised (ValueError msg), log)
    ∧ (msg = not_contained ∨ msg = no_location).
Proof.
  intros Hp. destruct (truthy location) eqn:Hl.
  - exists not_contained. split; [|by left].
    destruct location as [[|c location]|]; try discriminate Hl.
    apply get_flow_other_location; [done|].
    intros ->. discriminate Hp.
  - exists no_location. split; [|by right].
    apply get_flow_no_location; [done|].
    destruct (after_adds_frame (Bitbucket_init repo0 path0 host0) history)
      as (_ & -> & _).
    done.
Qed.

(** X9. Once a flow is registered on a storage with a non-empty default
    path, asking for the default path by name, asking with the empty string
    and asking with [None] are the same call. *)
Theorem get_flow_default_path_aliases
    repo0 (path0 : str) host0 history log :
  path0 ≠ [] →
  history ≠ [] →
  let self := after_adds (Bitbucket_init repo0 (Some path0) host0) history in
  get_flow self (Some path0) log = get_flow self None log
  ∧ get_flow self (Some []) log = get_flow self None log.
Proof.
  clear run_basic_healthchecks.
  intros Hp Hh self.
  destruct (after_adds_frame (Bitbucket_init repo0 (Some path0) host0) history)
    as (_ & Hpath & _).
  fold self in Hpath. cbn [Bitbucket_init path] in Hpath.
  assert (truthy (Some path0) = true) as Htp by (by destruct path0).
  assert (∃ name, flows self !! name = Some (Some path0)) as [name Hname].
  { destruct history as [|flow history]; [done|]. exists (flow_name flow).
    assert (is_Some (flows self !! flow_name flow)) as [v Hv].
    { apply elem_of_dom. unfold self. rewrite dom_flows_after_adds.
      cbn [fmap list_fmap list_to_set]. set_solver. }
    rewrite Hv. f_equal.
    pose proof (single_path_after_adds _ (flow :: history)
                  (single_path_init repo0 (Some path0) host0)) as Hinv.
    fold self in Hinv. rewrite (Hinv _ _ Hv). exact Hpath. }
  rewrite (get_flow_fetch self (Some path0) path0),
    (get_flow_fetch self None path0), (get_flow_fetch self (Some []) path0);
    first [done | right; by rewrite Hpath | left; eauto].
Qed.

(** X10. [get_flow] issues at most one request: either it raises one of its
    two errors and the log is as it was, or it settles on a non-empty
    location and is the fetch of that location on branch [master], followed
    by the extraction. *)
Theorem get_flow_at_most_one_request self location log :
  get_flow self location log = (Raised (ValueError not_contained), log)
  ∨ get_flow self location log = (Raised (ValueError no_location), log)
  ∨ ∃ loc : str,
      loc ≠ []
      ∧ snd (get_flow self location log)
        = log ++ [contents_request (_client self) (repo self) loc
                    (lit "master")]
      ∧ get_flow self location log
        = (let* content :=
             get_contents (_client self) (repo self) loc (lit "master") in
           lift (extract_flow_from_file content)) log.
Proof.
  assert (∀ loc : str,
    get_flow self location log
    = (let* content :=
         get_contents (_client self) (repo self) loc (lit "master") in
       lift (extract_flow_from_file content)) log →
    snd (get_flow self location log)
    = log ++ [contents_request (_client self) (repo self) loc (lit "master")])
    as Hlog.
  { intros loc ->. unfold bind, lift.
    pose proof (get_contents_log (_client self) (repo self) loc
                  (lit "master") log) as H.
    by destruct (get_contents _ _ _ _ log) as [[content|e] log']. }
  destruct location as [[|c location]|].
  - destruct (path self) as [[|c p]|] eqn:Hp.
    + right; left. apply get_flow_no_location; [done|by rewrite Hp].
    + right; right. exists (c :: p).
      assert (get_flow self (Some []) log
              = (let* content :=
                   get_contents (_client self) (repo self) (c :: p)
                     (lit "master") in
                 lift (extract_flow_from_file content)) log) as Hrun
        by (apply get_flow_fetch; right; by rewrite Hp).
      split; [done|]. split; [by apply Hlog|done].
    + right; left. apply get_flow_no_location; [done|by rewrite Hp].
  - pose proof (get_flow_given self (c :: location) log) as Hrun.
    destruct (bool_decide _); [|left; by apply Hrun].
    right; right. exists (c :: location).
    split; [done|]. split; [apply Hlog|]; by apply Hrun.
  - destruct (path self) as [[|c p]|] eqn:Hp.
    + right; left. apply get_flow_no_location; [done|by rewrite Hp].
    + right; right. exists (c :: p).
      assert (get_flow self None log
              = (let* content :=
                   get_contents (_client self) (repo self) (c :: p)
                     (lit "master") in
                 lift (extract_flow_from_file content)) log) as Hrun
        by (apply get_flow_fetch; right; by rewrite Hp).
      split; [done|]. split; [by apply Hlog|done].
    + right; left. apply get_flow_no_location; [done|by rewrite Hp].
Qed.

(** X11. An exception of the HTTP layer (a connection error, say) passes
    through [get_flow] unchanged, after the one request was issued. *)
Theorem get_flow_transport_error self (path0 : str) location log e :
  path self = Some path0 →
  path0 ≠ [] →
  truthy location = false →
  transport log
    (contents_request (_client self) (repo self) path0 (lit "master"))
    = Raised e →
  get_flow self location log =
  (Raised e,
   log ++ [contents_request (_client self) (repo self) path0 (lit "master")]).
Proof.
  intros Hpath Hp Hl Ht.
  rewrite (get_flow_fetch self location path0)
    by (right; rewrite Hpath; by destruct path0).
  unfold bind. by rewrite (get_contents_transport_error _ _ _ _ _ _ Ht).
Qed.

(** X12. [get_flow] from end to end, when the HTTP layer answers the request
    for the default path: the errors of the client (authentication, missing
    file on branch [master], failed request, undecodable body) reach the
    caller untranslated, and on a 2xx answer the outcome is the outcome of
    the extraction on the decoded body, an error of the extraction
    included. *)
Theorem get_flow_end_to_end self (path0 : str) location log response :
  path self = Some path0 →
  path0 ≠ [] →
  truthy location = false →
  transport log
    (contents_request (_client self) (repo self) path0 (lit "master"))
    = Returned response →
  get_flow self location log =
  (if status_code response =? 401 then
     Raised (ValueError authentication_failed)
   else if status_code response =? 404 then
     Raised (ValueError (no_file_found path0 (repo self) (lit "master")))
   else if (200 <=? status_code response) && (status_code response <? 300)
   then
     match Utf8.decode (content response) with
     | Some text => extract_flow_from_file text
     | None => Raised UnicodeDecodeError
     end
   else Raised (ValueError (request_failed (status_code response))),
   log ++ [contents_request (_client self) (repo self) path0 (lit "master")]).
Proof.
  intros Hpath Hp Hl Ht.
  rewrite (get_flow_fetch self location path0)
    by (right; rewrite Hpath; by destruct path0).
  unfold bind. rewrite (get_contents_answered _ _ _ _ _ _ Ht).
  destruct (status_code response =? 401); [done|].
  destruct (status_code response =? 404); [done|].
  destruct ((200 <=? status_code response) && _); [|done].
  by destruct (Utf8.decode (content response)).
Qed.

(** X13. After any series of registrations on a constructed storage, the
    registry maps exactly the names that were offered to the default path:
    it depends neither on the order of the registrations nor on repeats. *)
Theorem registry_after_adds repo0 path0 host0 history :
  flows (after_adds (Bitbucket_init repo0 path0 host0) history)
  = gset_to_gmap path0 (list_to_set (flow_name <$> history)).
Proof.
  clear extract_flow_from_file run_basic_healthchecks.
  apply map_eq. intros name. rewrite lookup_gset_to_gmap.
  pose proof (dom_flows_after_adds (Bitbucket_init repo0 path0 host0) history)
    as Hdom.
  cbn [Bitbucket_init flows] in Hdom. rewrite dom_empty_L in Hdom.
  pose proof (single_path_after_adds _ history
                (single_path_init repo0 path0 host0)) as Hinv.
  destruct (after_adds_frame (Bitbucket_init repo0 path0 host0) history)
    as (_ & Hpath & _).
  cbn [Bitbucket_init path] in Hpath.
  destruct (flows _ !! name) as [v|] eqn:E.
  - rewrite option_guard_True.
    + cbn. f_equal. rewrite <- Hpath. by apply (Hinv name).
    + assert (name ∈ dom (flows (after_adds
                (Bitbucket_init repo0 path0 host0) history))) as Hin
        by (apply elem_of_dom; by eexists).
      rewrite Hdom in Hin. set_solver.
  - rewrite option_guard_False; [done|].
    intros Hin. apply not_elem_of_dom in E. apply E. rewrite Hdom. set_solver.
Qed.

(** The flow objects after a series of registrations on a storage whose two
    registries hold the same names. *)
Lemma _flows_after_adds self history name :
  aligned self →
  _flows (after_adds self history) !! name
  = match _flows self !! name with
    | Some flow => Some flow
    | None => head (filter (λ flow, flow_name flow = name) history)
    end.
Proof.
  revert self. induction history as [|flow history IH]; intros self Hal.
  - cbn. by destruct (_flows self !! name).
  - cbn [after_adds fold_left]. fold (after_adds (after_add self flow) history).
    rewrite IH by (by apply aligned_after_add).
    unfold after_add, add_flow.
    destruct (contains self (flow_name flow)) eqn:E; cbn [snd _flows].
    + destruct (_flows self !! name) as [f|] eqn:Hf; [done|].
      rewrite filter_cons_False; [done|].
      intros Heq. rewrite Heq in E. apply contains_true, elem_of_dom in E.
      rewrite Hal in E. apply elem_of_dom in E. rewrite Hf in E.
      by destruct E.
    + apply contains_false, not_elem_of_dom in E.
      rewrite Hal in E. apply not_elem_of_dom in E.
      destruct (decide (flow_name flow = name)) as [Heq|Hne].
      * rewrite <- Heq at 1 2. rewrite lookup_insert_eq, E.
        by rewrite filter_cons_True.
      * rewrite lookup_insert_ne by done.
        by rewrite filter_cons_False.
Qed.

(** X14. The first registration wins: after any series of registrations on
    a constructed storage, the flow object remembered under a name is the
    first one that was offered with that name; later ones were refused and
    did not replace it. *)
Theorem first_registration_wins repo0 path0 host0 history name :
  _flows (after_adds (Bitbucket_init repo0 path0 host0) history) !! name
  = head (filter (λ flow, flow_name flow = name) history).
Proof.
  rewrite _flows_after_adds.
  - cbn [Bitbucket_init _flows]. by rewrite lookup_empty.
  - unfold aligned. cbn [Bitbucket_init flows _flows]. by rewrite !dom_empty_L.
Qed.

(** X15. [add_flow] touches the entry of the flow's name only: under every
    other name both registries read as before, whether the call succeeds or
    raises. *)
Theorem add_flow_leaves_other_names self flow name :
  name ≠ flow_name flow →
  flows (snd (add_flow self flow)) !! name = flows self !! name
  ∧ _flows (snd (add_flow self flow)) !! name = _flows self !! name.
Proof.
  intros Hne. unfold add_flow.
  destruct (contains self (flow_name flow)); cbn [snd flows _flows]; [done|].
  by rewrite !lookup_insert_ne.
Qed.

(** X16. The host given to the storage selects the URL of its fetches: with
    a non-empty host [get_flow] asks the server URL for the default path on
    branch [master], without a host it asks the cloud URL; in both cases
    with the credentials of [prefect.context]. *)
Theorem storage_fetch_url repo0 (path0 h : str) history location log :
  path0 ≠ [] →
  h ≠ [] →
  truthy location = false →
  let secrets := default ∅ (context !! lit "secrets") in
  let sent url :=
    mkSent (secrets !! lit "BITBUCKET_USER", secrets !! lit "BITBUCKET_PASSWORD")
      (lit "GET") url None None
      {[ lit "User-agent" := lit "Prefect/" ++ prefect_version ]} in
  snd (get_flow
         (after_adds (Bitbucket_init repo0 (Some path0) (Some h)) history)
         location log)
    = log ++ [sent
                (h ++ lit "/projects/" ++ repo0 ++ lit "/browse/" ++ path0
                   ++ lit "?raw&at=" ++ lit "master")]
  ∧ snd (get_flow
           (after_adds (Bitbucket_init repo0 (Some path0) None) history)
           location log)
    = log ++ [sent
                (CLOUD_API ++ lit "/repositories/" ++ repo0 ++ lit "/src/"
                   ++ lit "master" ++ lit "/" ++ path0)].
Proof.
  intros Hp Hh Hl secrets sent.
  assert (∀ host0,
    snd (get_flow
           (after_adds (Bitbucket_init repo0 (Some path0) host0) history)
           location log)
    = log ++ [contents_request (BitbucketClient_init None host0) repo0 path0
                (lit "master")]) as Hlog.
  { intros host0.
    destruct (after_adds_frame (Bitbucket_init repo0 (Some path0) host0)
                history) as (Hrepo & Hpath & Hclient).
    cbn [Bitbucket_init repo path _client] in Hrepo, Hpath, Hclient.
    rewrite (get_flow_fetch _ location path0)
      by (right; rewrite Hpath; by destruct path0).
    rewrite Hrepo, Hclient. unfold bind, lift.
    pose proof (get_contents_log (BitbucketClient_init None host0) repo0
                  path0 (lit "master") log) as H.
    by destruct (get_contents _ _ _ _ log) as [[content|e] log']. }
  rewrite !Hlog. split; [|done]. do 2 f_equal.
  unfold contents_request, request_sent, contents_url.
  cbn [BitbucketClient_init truthy_dict host session auth].
  by destruct h.
Qed.

End Prefect.

(* ------------------------------------------------------------------ *)
(** ** The model at work

    A flow is taken to be its name and its source text; the extraction
    names every flow [f].  The HTTP layer [answer status body] answers
    every request alike. *)

Definition demo_version : str := lit "0.13.0".

Definition demo_context : gmap (list N) (gmap (list N) (list N)) := ∅.

Definition answer (status : Z) (body : list byte)
    : list Sent → Sent → outcome Response :=
  λ _ _, Returned (mkResponse status body).

Definition demo_name (flow : list N * list N) : str := fst flow.

Definition demo_extract (text : str) : outcome (list N * list N) :=
  Returned (lit "f", text).

Definition demo_flow : list N * list N := (lit "f", lit "flow = Flow()").

Definition demo_client : BitbucketClient :=
  BitbucketClient_init demo_context None (Some (lit "https://bb.internal")).

(** The storage of the scenario: repo [team/repo1], path [flows/f.py], with
    flow [f] registered. *)
Definition demo_storage : Bitbucket :=
  after_adds demo_name
    (Bitbucket_init demo_context (lit "team/repo1") (Some (lit "flows/f.py"))
       None)
    [demo_flow].

(** The bytes [68 C3 A9]: the text [h], [U+00E9]. *)
Definition demo_body : list byte := [x68; xc3; xa9].

(** The registry and the flow objects of the scenario. *)
Example demo_storage_registries :
  flows demo_storage = {[ lit "f" := Some (lit "flows/f.py") ]}
  ∧ _flows demo_storage = {[ lit "f" := demo_flow ]}.
Proof. split; reflexivity. Qed.

Lemma get_flow_not_contained_witness :
  lit "x" ≠ []
  ∧ (Some (lit "x") ∉ dict_values (flows demo_storage))
  ∧ (get_flow demo_version (answer 200 demo_body) demo_extract demo_storage
       (Some (lit "x")) []
     = (Raised (ValueError not_contained), [])).
Proof.
  assert (Some (lit "x") ∉ dict_values (flows demo_storage)) as Hout.
  { apply (proj1 (bool_decide_eq_false _)). vm_compute. reflexivity. }
  split; [done|]. split; [exact Hout|].
  apply (get_flow_not_contained demo_version (answer 200 demo_body)
           demo_extract demo_storage (lit "x") []); [done|exact Hout].
Defined.

(** Registering [g] next to [f]: both resolve to [flows/f.py]. *)
Lemma add_flow_default_path_witness :
  contains demo_storage (lit "g") = false
  ∧ fst (add_flow demo_name demo_storage (lit "g", lit "flow = Flow()"))
    = Returned (Some (lit "flows/f.py"))
  ∧ ∀ name,
      is_Some (flows (after_add demo_name demo_storage
                        (lit "g", lit "flow = Flow()")) !! name) →
      flows (after_add demo_name demo_storage
               (lit "g", lit "flow = Flow()")) !! name
      = Some (Some (lit "flows/f.py")).
Proof.
  assert (contains demo_storage (lit "g") = false) as Hfresh
    by (vm_compute; reflexivity).
  split; [exact Hfresh|].
  destruct (add_flow_default_path demo_context demo_name (lit "team/repo1")
              (Some (lit "flows/f.py")) None [demo_flow]
              (lit "g", lit "flow = Flow()") Hfresh)
    as (Hrun & _ & _ & Hall).
  split; [|exact Hall].
  unfold demo_storage. rewrite Hrun. reflexivity.
Defined.

(** The scenario of the spec: host [https://bb.internal], repo [PROJ]. *)
Lemma get_contents_url_witness :
  lit "https://bb.internal" ≠ []
  ∧ sent_url <$> last (snd (get_contents demo_version (answer 200 demo_body)
                              demo_client (lit "PROJ") (lit "a.py")
                              (lit "main") []))
    = Some (lit "https://bb.internal/projects/PROJ/browse/a.py?raw&at=main").
Proof.
  split; [done|].
  destruct (get_contents_url demo_version demo_context
              (answer 200 demo_body) None (lit "https://bb.internal")
              (lit "PROJ") (lit "a.py") (lit "main") [])
    as (Hserver & _); [done|].
  unfold demo_client. rewrite Hserver. reflexivity.
Defined.

Example get_contents_url_cloud :
  sent_url <$> last (snd (get_contents demo_version (answer 200 demo_body)
                            (BitbucketClient_init demo_context None None)
                            (lit "team/repo1") (lit "flows/f.py")
                            (lit "master") []))
  = Some (lit
      "https://api.bitbucket.org/2.0/repositories/team/repo1/src/master/flows/f.py").
Proof. vm_compute. reflexivity. Qed.

Lemma unauthorized_raises_first_witness :
  status_code (mkResponse 401 []) = 401
  ∧ get_contents demo_version (answer 401 []) demo_client (lit "PROJ")
      (lit "a.py") (lit "main") []
    = (Raised (ValueError authentication_failed),
       [contents_request demo_version demo_client (lit "PROJ") (lit "a.py")
          (lit "main")]).
Proof.
  split; [reflexivity|].
  destruct (unauthorized_raises_first demo_version (answer 401 [])
              demo_client [] (mkResponse 401 []) eq_refl)
    as (_ & Hfetch & _).
  destruct (Hfetch (lit "PROJ") (lit "a.py") (lit "main") eq_refl)
    as (Hrun & _).
  exact Hrun.
Defined.

(** The message raised on a 401 is not the one of the spec. *)
Lemma unauthorized_message_differs :
  fst (_request demo_version (answer 401 []) demo_client (lit "GET")
         (lit "https://bb.internal/projects/PROJ/browse/a.py?raw&at=main")
         None None None [])
  = Raised (ValueError (lit
      "Bitbucket authentication failed, please check your credentials."))
  ∧ lit "Bitbucket authentication failed, please check your credentials."
    ≠ lit "authentication failed, check credentials".
Proof. split; [vm_compute; reflexivity|discriminate]. Qed.

Lemma get_contents_failure_witness :
  answer 404 [] [] (contents_request demo_version demo_client (lit "PROJ")
                      (lit "a.py") (lit "main"))
    = Returned (mkResponse 404 [])
  ∧ status_code (mkResponse 404 []) ≠ 401
  ∧ ¬ (200 ≤ status_code (mkResponse 404 []) < 300)
  ∧ fst (get_contents demo_version (answer 404 []) demo_client (lit "PROJ")
           (lit "a.py") (lit "main") [])
    = Raised (ValueError (lit "No file found at `a.py` in repo `PROJ@main`")).
Proof.
  assert (status_code (mkResponse 404 []) ≠ 401) as H401 by (cbn; lia).
  assert (¬ (200 ≤ status_code (mkResponse 404 []) < 300)) as H2xx
    by (cbn; lia).
  split; [reflexivity|]. split; [exact H401|]. split; [exact H2xx|].
  destruct (get_contents_failure demo_version (answer 404 []) demo_client
              (lit "PROJ") (lit "a.py") (lit "main") [] (mkResponse 404 [])
              eq_refl H401 H2xx)
    as (Hrun & _).
  rewrite Hrun. reflexivity.
Defined.

Example get_contents_server_error :
  fst (get_contents demo_version (answer 503 []) demo_client (lit "PROJ")
         (lit "a.py") (lit "main") [])
  = Raised (ValueError (lit "Request to Bitbucket failed with 503")).
Proof. vm_compute. reflexivity. Qed.

(** A 401 is a status other than 404 outside [200, 300), and it does not
    raise the error that carries the status; and the message raised on a 404
    starts with a capital letter. *)
Lemma other_status_not_always_request_failed :
  401 ≠ 404
  ∧ ¬ (200 ≤ 401 < 300)
  ∧ fst (get_contents demo_version (answer 401 []) demo_client (lit "PROJ")
           (lit "a.py") (lit "main") [])
    = Raised (ValueError (lit
        "Bitbucket authentication failed, please check your credentials."))
  ∧ fst (get_contents demo_version (answer 401 []) demo_client (lit "PROJ")
           (lit "a.py") (lit "main") [])
    ≠ Raised (ValueError (lit "Request to Bitbucket failed with 401"))
  ∧ fst (get_contents demo_version (answer 404 []) demo_client (lit "PROJ")
           (lit "a.py") (lit "main") [])
    = Raised (ValueError (lit "No file found at `a.py` in repo `PROJ@main`"))
  ∧ lit "No file found at `a.py` in repo `PROJ@main`"
    ≠ lit "no file found at `a.py` in repo `PROJ@main`".
Proof.
  split; [lia|]. split; [lia|].
  split; [vm_compute; reflexivity|].
  split; [vm_compute; discriminate|].
  split; [vm_compute; reflexivity|discriminate].
Qed.

Lemma add_flow_twice_witness :
  demo_name (lit "f", lit "flow = Flow(other)") = demo_name demo_flow
  ∧ add_flow demo_name demo_storage (lit "f", lit "flow = Flow(other)")
    = (Raised (ValueError (name_conflict (lit "f"))), demo_storage).
Proof.
  split; [reflexivity|].
  apply (add_flow_twice demo_name
           (Bitbucket_init demo_context (lit "team/repo1")
              (Some (lit "flows/f.py")) None)
           demo_flow [] (lit "f", lit "flow = Flow(other)") eq_refl).
Defined.

Example name_conflict_message :
  name_conflict (lit "f") =
  lit "Name conflict: Flow with the name " ++ dquote ++ lit "f" ++ dquote
    ++ lit " is already present in this storage.".
Proof. reflexivity. Qed.

(** The scenario of the spec: repo [team/repo1], path [flows/f.py], flow [f]
    registered, [get_flow] without a location. *)
Lemma get_flow_default_witness :
  lit "flows/f.py" ≠ []
  ∧ truthy None = false
  ∧ get_flow demo_version (answer 200 demo_body) demo_extract demo_storage
      None []
    = (Returned (lit "f", [104; 233]%N),
       [contents_request demo_version
          (BitbucketClient_init demo_context None None) (lit "team/repo1")
          (lit "flows/f.py") (lit "master")]).
Proof.
  split; [done|]. split; [reflexivity|].
  destruct (get_flow_default demo_version demo_context (answer 200 demo_body)
              demo_name demo_extract (lit "team/repo1") (lit "flows/f.py")
              None [demo_flow] None [])
    as (Hrun & _); [done|reflexivity|].
  unfold demo_storage. rewrite Hrun. vm_compute. reflexivity.
Defined.

Lemma get_contents_success_witness :
  answer 200 demo_body [] (contents_request demo_version demo_client
                             (lit "PROJ") (lit "a.py") (lit "main"))
    = Returned (mkResponse 200 demo_body)
  ∧ 200 ≤ status_code (mkResponse 200 demo_body) < 300
  ∧ fst (get_contents demo_version (answer 200 demo_body) demo_client
           (lit "PROJ") (lit "a.py") (lit "main") [])
    = Returned [104; 233]%N.
Proof.
  assert (200 ≤ status_code (mkResponse 200 demo_body) < 300) as H2xx
    by (cbn; lia).
  split; [reflexivity|]. split; [exact H2xx|].
  destruct (get_contents_success demo_version (answer 200 demo_body)
              demo_client (lit "PROJ") (lit "a.py") (lit "main") []
              (mkResponse 200 demo_body) eq_refl H2xx)
    as (Hrun & _).
  rewrite Hrun. reflexivity.
Defined.

(** A 2xx answer is not always returned: status 200 with the body [C3], a
    lead byte without its continuation, raises [UnicodeDecodeError]. *)
Lemma success_status_undecodable_body :
  200 ≤ status_code (mkResponse 200 [xc3]) < 300
  ∧ answer 200 [xc3] []
      (contents_request demo_version demo_client (lit "PROJ") (lit "a.py")
         (lit "main"))
    = Returned (mkResponse 200 [xc3])
  ∧ Utf8.decode (content (mkResponse 200 [xc3])) = None
  ∧ get_contents demo_version (answer 200 [xc3]) demo_client (lit "PROJ")
      (lit "a.py") (lit "main") []
    = (Raised UnicodeDecodeError,
       [contents_request demo_version demo_client (lit "PROJ") (lit "a.py")
          (lit "main")]).
Proof.
  split; [cbn; lia|]. split; [reflexivity|]. split; [reflexivity|].
  vm_compute. reflexivity.
Qed.

Example get_contents_not_utf8 :
  fst (get_contents demo_version (answer 200 [xc3]) demo_client (lit "PROJ")
         (lit "a.py") (lit "main") [])
  = Raised UnicodeDecodeError.
Proof. vm_compute. reflexivity. Qed.

Lemma add_flow_error_unchanged_witness :
  add_flow demo_name demo_storage demo_flow
    = (Raised (ValueError (name_conflict (lit "f"))), demo_storage)
  ∧ flows demo_storage = flows demo_storage
  ∧ _flows demo_storage = _flows demo_storage.
Proof.
  assert (add_flow demo_name demo_storage demo_flow
          = (Raised (ValueError (name_conflict (lit "f"))), demo_storage))
    as Hrun by (vm_compute; reflexivity).
  split; [exact Hrun|].
  destruct (add_flow_error_unchanged demo_name demo_storage demo_flow _ _ Hrun)
    as (_ & _ & _ & Hflows & Hobjects).
  split; [exact Hflows|exact Hobjects].
Defined.

(* ------------------------------------------------------------------ *)
(** ** Further runs *)

(** X2. Without usable credentials the client falls back on
    [prefect.context]: an empty [credentials] dict counts as none, the pair
    is read from the [secrets] entry of the context, and a context without
    that entry gives the pair [(None, None)] and no error. *)
Theorem client_ambient_credentials
    (context : gmap (list N) (gmap (list N) (list N)))
    (secrets : gmap (list N) (list N)) (host : option str) :
  BitbucketClient_init context (Some ∅) host
    = BitbucketClient_init context None host
  ∧ BitbucketClient_init (<[ lit "secrets" := secrets ]> context) None host
    = {| host := host;
         session := {| auth := (secrets !! lit "BITBUCKET_USER",
                                secrets !! lit "BITBUCKET_PASSWORD") |} |}
  ∧ BitbucketClient_init (delete (lit "secrets") context) None host
    = {| host := host; session := {| auth := (None, None) |} |}.
Proof.
  split; [|split].
  - unfold BitbucketClient_init, truthy_dict.
    by rewrite dom_empty_L, bool_decide_eq_true_2.
  - unfold BitbucketClient_init. cbn [truthy_dict].
    by rewrite lookup_insert_eq.
  - unfold BitbucketClient_init. cbn [truthy_dict].
    by rewrite lookup_delete_eq.
Qed.

(** A context with both secrets, and credentials that hold a user only. *)
Definition demo_secrets : gmap (list N) (gmap (list N) (list N)) :=
  {[ lit "secrets" :=
       <[ lit "BITBUCKET_USER" := lit "bob" ]>
         {[ lit "BITBUCKET_PASSWORD" := lit "hunter2" ]} ]}.

Definition demo_credentials : gmap (list N) (list N) :=
  {[ lit "BITBUCKET_USER" := lit "alice" ]}.

(** The HTTP layer that fails to connect. *)
Definition unreachable : list Sent → Sent → outcome Response :=
  λ _ _, Raised (CollaboratorError (lit "ConnectionError")).

(** The password of the context is not used to fill the missing one. *)
Lemma client_explicit_credentials_witness :
  demo_credentials ≠ ∅
  ∧ auth (session (BitbucketClient_init demo_secrets (Some demo_credentials)
                     None))
    = (Some (lit "alice"), None).
Proof.
  assert (demo_credentials ≠ ∅) as Hc by apply map_non_empty_singleton.
  split; [exact Hc|].
  destruct (client_explicit_credentials demo_version demo_secrets
              (answer 200 demo_body) demo_credentials None (lit "PROJ")
              (lit "a.py") (lit "main") [] Hc)
    as (Hauth & _).
  rewrite Hauth. vm_compute. reflexivity.
Defined.

Lemma _request_passes_other_statuses_witness :
  status_code (mkResponse 404 []) ≠ 401
  ∧ fst (_request demo_version (answer 404 []) demo_client (lit "GET")
           (lit "https://bb.internal/x") None None None [])
    = Returned (mkResponse 404 []).
Proof.
  assert (status_code (mkResponse 404 []) ≠ 401) as H401 by (cbn; lia).
  split; [exact H401|].
  rewrite (_request_passes_other_statuses demo_version (answer 404 [])
             demo_client (lit "GET") (lit "https://bb.internal/x") None None
             None [] (mkResponse 404 []) eq_refl H401).
  reflexivity.
Defined.

Lemma get_contents_returns_only_2xx_witness :
  fst (get_contents demo_version (answer 200 demo_body) demo_client
         (lit "PROJ") (lit "a.py") (lit "main") [])
    = Returned [104; 233]%N
  ∧ 200 ≤ status_code (mkResponse 200 demo_body) < 300
  ∧ Utf8.decode (content (mkResponse 200 demo_body)) = Some [104; 233]%N.
Proof.
  assert (fst (get_contents demo_version (answer 200 demo_body) demo_client
                 (lit "PROJ") (lit "a.py") (lit "main") [])
          = Returned [104; 233]%N) as Hrun by (vm_compute; reflexivity).
  split; [exact Hrun|].
  exact (get_contents_returns_only_2xx demo_version (answer 200 demo_body)
           demo_client (lit "PROJ") (lit "a.py") (lit "main") []
           (mkResponse 200 demo_body) [104; 233]%N eq_refl Hrun).
Defined.

(** The default path itself is refused while nothing is registered. *)
Lemma get_flow_fresh_storage_rejects_witness :
  lit "flows/f.py" ≠ []
  ∧ get_flow demo_version (answer 200 demo_body) demo_extract
      (Bitbucket_init demo_context (lit "team/repo1")
         (Some (lit "flows/f.py")) None)
      (Some (lit "flows/f.py")) []
    = (Raised (ValueError not_contained), []).
Proof.
  split; [done|].
  apply (get_flow_fresh_storage_rejects demo_version demo_context
           (answer 200 demo_body) demo_extract (lit "team/repo1")
           (Some (lit "flows/f.py")) None (lit "flows/f.py") []).
  done.
Defined.

Lemma get_flow_without_path_never_fetches_witness :
  truthy None = false
  ∧ ∃ msg,
      get_flow demo_version (answer 200 demo_body) demo_extract
        (after_adds demo_name
           (Bitbucket_init demo_context (lit "team/repo1") None None)
           [demo_flow])
        (Some (lit "flows/f.py")) []
      = (Raised (ValueError msg), [])
      ∧ (msg = not_contained ∨ msg = no_location).
Proof.
  split; [reflexivity|].
  apply (get_flow_without_path_never_fetches demo_version demo_context
           (answer 200 demo_body) demo_name demo_extract (lit "team/repo1")
           None None [demo_flow] (Some (lit "flows/f.py")) []).
  reflexivity.
Defined.

Lemma get_flow_default_path_aliases_witness :
  lit "flows/f.py" ≠ []
  ∧ [demo_flow] ≠ []
  ∧ get_flow demo_version (answer 200 demo_body) demo_extract demo_storage
      (Some (lit "flows/f.py")) []
    = get_flow demo_version (answer 200 demo_body) demo_extract demo_storage
        None [].
Proof.
  split; [done|]. split; [done|].
  destruct (get_flow_default_path_aliases demo_version demo_context
              (answer 200 demo_body) demo_name demo_extract
              (lit "team/repo1") (lit "flows/f.py") None [demo_flow] [])
    as (Hsame & _); [done|done|].
  exact Hsame.
Defined.

Lemma get_flow_transport_error_witness :
  path demo_storage = Some (lit "flows/f.py")
  ∧ lit "flows/f.py" ≠ []
  ∧ truthy None = false
  ∧ fst (get_flow demo_version unreachable demo_extract demo_storage None [])
    = Raised (CollaboratorError (lit "ConnectionError")).
Proof.
  split; [reflexivity|]. split; [done|]. split; [reflexivity|].
  rewrite (get_flow_transport_error demo_version unreachable
             demo_extract demo_storage (lit "flows/f.py") None []
             (CollaboratorError (lit "ConnectionError")));
    [reflexivity|reflexivity|done|reflexivity|reflexivity].
Defined.

(** A missing file is reported with the branch [master]. *)
Lemma get_flow_end_to_end_witness :
  path demo_storage = Some (lit "flows/f.py")
  ∧ lit "flows/f.py" ≠ []
  ∧ truthy None = false
  ∧ fst (get_flow demo_version (answer 404 []) demo_extract demo_storage
           None [])
    = Raised (ValueError (lit
        "No file found at `flows/f.py` in repo `team/repo1@master`")).
Proof.
  split; [reflexivity|]. split; [done|]. split; [reflexivity|].
  rewrite (get_flow_end_to_end demo_version (answer 404 [])
             demo_extract demo_storage (lit "flows/f.py") None []
             (mkResponse 404 []));
    [vm_compute; reflexivity|reflexivity|done|reflexivity|reflexivity].
Defined.

(** Two flows named [f] and one named [g]: the second [f] is not kept. *)
Example first_registration_wins_run :
  _flows (after_adds demo_name
            (Bitbucket_init demo_context (lit "team/repo1")
               (Some (lit "flows/f.py")) None)
            [demo_flow; (lit "f", lit "flow = Flow(other)");
             (lit "g", lit "flow = Flow()")])
    !! lit "f"
  = Some demo_flow.
Proof. vm_compute. reflexivity. Qed.

Lemma add_flow_leaves_other_names_witness :
  lit "f" ≠ demo_name (lit "g", lit "flow = Flow()")
  ∧ flows (snd (add_flow demo_name demo_storage
                  (lit "g", lit "flow = Flow()"))) !! lit "f"
    = Some (Some (lit "flows/f.py")).
Proof.
  assert (lit "f" ≠ demo_name (lit "g", lit "flow = Flow()")) as Hne
    by discriminate.
  split; [exact Hne|].
  destruct (add_flow_leaves_other_names demo_name demo_storage
              (lit "g", lit "flow = Flow()") (lit "f") Hne)
    as (Hflows & _).
  rewrite Hflows. reflexivity.
Defined.

Lemma storage_fetch_url_witness :
  lit "flows/f.py" ≠ []
  ∧ lit "https://bb.internal" ≠ []
  ∧ truthy None = false
  ∧ sent_url <$> last (snd (get_flow demo_version (answer 200 demo_body)
                              demo_extract
                              (after_adds demo_name
                                 (Bitbucket_init demo_context (lit "PROJ")
                                    (Some (lit "flows/f.py"))
                                    (Some (lit "https://bb.internal")))
                                 [demo_flow])
                              None []))
    = Some (lit
        "https://bb.internal/projects/PROJ/browse/flows/f.py?raw&at=master").
Proof.
  split; [done|]. split; [done|]. split; [reflexivity|].
  destruct (storage_fetch_url demo_version demo_context
              (answer 200 demo_body) demo_name demo_extract (lit "PROJ")
              (lit "flows/f.py") (lit "https://bb.internal") [demo_flow]
              None [])
    as (Hserver & _); [done|done|reflexivity|].
  rewrite Hserver. reflexivity.
Defined.
